(** * Dog Treat Focus: the session state machine and the reward ledger

    A shallow embedding of [src/DogTreatFocusApp.jsx], a single React
    function component, and the properties of its session state machine
    and of its ledger of treats and donations.

    The component keeps twelve [useState] cells.  A render reads all of them
    and builds its closures ([start], [reset], [complete], [fail],
    [donateNow], the effect callbacks) over the values it read.  Two of those
    closures outlive the render that built them:

    - the [visibilitychange] listener, installed by an effect whose
      dependencies are [[running, strictMode]];
    - the [setInterval] callback, installed by an effect whose dependency is
      [[running]].

    React runs an effect again only when one of its dependencies differs
    from the previous render, so both keep the variables of the render in
    which their dependencies last changed.  The embedding therefore carries,
    next to the current cells, the render each of the two was built in.

    An event (a click, a firing of the interval, a [visibilitychange]) is
    taken whole: the updates its handler queues are applied together, the
    component renders, and the effects that follow run before the next event
    arrives.  Every updater runs once.

    Numbers are JavaScript doubles in the source; the embedding takes them
    in [Z], the integers the data model prescribes.  The clock
    ([new Date().toISOString()]) and the answer to [confirm] are inputs of
    the events.  The [save] effects write to [localStorage] only and never
    to a state cell; they are left out. *)

From Stdlib Require Import ZArith String List Bool Lia DecimalString.
Import ListNotations.

Local Open Scope Z_scope.
Local Open Scope string_scope.

(** ** Data *)

(** [status]: the strings "idle", "running", "done", "failed". *)
Inductive Status : Type := Idle | Running | Done | Failed.

Definition Status_eqb (x y : Status) : bool :=
  match x, y with
  | Idle, Idle | Running, Running | Done, Done | Failed, Failed => true
  | _, _ => false
  end.

(** [shelter]: [{ name, url }]. *)
Record Shelter : Type := mkShelter { name : string; url : string }.

(** An element of [history]: [{ at, duration, success, earnedTreats }];
    [earnedTreats] is present on the entries of successes only. *)
Module Entry.
Record t : Type := mk
  { at_ : string; duration : Z; success : bool; earnedTreats : option Z }.
End Entry.

(** The [useState] cells, in the order of the source (lines 25-38).
    [shelter] is [None] when the stored value is [null]. *)
Record Hooks : Type := mkHooks
  { duration : Z;
    strictMode : bool;
    treatsPerSuccess : Z;
    pledgeRateCents : Z;
    shelter : option Shelter;
    remaining : Z;
    running : bool;
    status : Status;
    message : string;
    treats : Z;
    donatedCents : Z;
    history : list Entry.t }.

(** The state setters; [setX (f s) s] renders the updater form [setX(f)]. *)
Definition setDuration (v : Z) (s : Hooks) : Hooks :=
  mkHooks v (strictMode s) (treatsPerSuccess s) (pledgeRateCents s)
    (shelter s) (remaining s) (running s) (status s) (message s) (treats s)
    (donatedCents s) (history s).
Definition setStrictMode (v : bool) (s : Hooks) : Hooks :=
  mkHooks (duration s) v (treatsPerSuccess s) (pledgeRateCents s)
    (shelter s) (remaining s) (running s) (status s) (message s) (treats s)
    (donatedCents s) (history s).
Definition setTreatsPerSuccess (v : Z) (s : Hooks) : Hooks :=
  mkHooks (duration s) (strictMode s) v (pledgeRateCents s)
    (shelter s) (remaining s) (running s) (status s) (message s) (treats s)
    (donatedCents s) (history s).
Definition setPledgeRateCents (v : Z) (s : Hooks) : Hooks :=
  mkHooks (duration s) (strictMode s) (treatsPerSuccess s) v
    (shelter s) (remaining s) (running s) (status s) (message s) (treats s)
    (donatedCents s) (history s).
Definition setShelter (v : option Shelter) (s : Hooks) : Hooks :=
  mkHooks (duration s) (strictMode s) (treatsPerSuccess s) (pledgeRateCents s)
    v (remaining s) (running s) (status s) (message s) (treats s)
    (donatedCents s) (history s).
Definition setRemaining (v : Z) (s : Hooks) : Hooks :=
  mkHooks (duration s) (strictMode s) (treatsPerSuccess s) (pledgeRateCents s)
    (shelter s) v (running s) (status s) (message s) (treats s)
    (donatedCents s) (history s).
Definition setRunning (v : bool) (s : Hooks) : Hooks :=
  mkHooks (duration s) (strictMode s) (treatsPerSuccess s) (pledgeRateCents s)
    (shelter s) (remaining s) v (status s) (message s) (treats s)
    (donatedCents s) (history s).
Definition setStatus (v : Status) (s : Hooks) : Hooks :=
  mkHooks (duration s) (strictMode s) (treatsPerSuccess s) (pledgeRateCents s)
    (shelter s) (remaining s) (running s) v (message s) (treats s)
    (donatedCents s) (history s).
Definition setMessage (v : string) (s : Hooks) : Hooks :=
  mkHooks (duration s) (strictMode s) (treatsPerSuccess s) (pledgeRateCents s)
    (shelter s) (remaining s) (running s) (status s) v (treats s)
    (donatedCents s) (history s).
Definition setTreats (v : Z) (s : Hooks) : Hooks :=
  mkHooks (duration s) (strictMode s) (treatsPerSuccess s) (pledgeRateCents s)
    (shelter s) (remaining s) (running s) (status s) (message s) v
    (donatedCents s) (history s).
Definition setDonatedCents (v : Z) (s : Hooks) : Hooks :=
  mkHooks (duration s) (strictMode s) (treatsPerSuccess s) (pledgeRateCents s)
    (shelter s) (remaining s) (running s) (status s) (message s) (treats s)
    v (history s).
Definition setHistory (v : list Entry.t) (s : Hooks) : Hooks :=
  mkHooks (duration s) (strictMode s) (treatsPerSuccess s) (pledgeRateCents s)
    (shelter s) (remaining s) (running s) (status s) (message s) (treats s)
    (donatedCents s) v.

(** The component between two events: the cells as of the last render, the
    render whose [onVis] is the registered [visibilitychange] listener, and
    the render whose callback the live interval runs ([None]: no interval,
    the one of [tickRef.current] having been cleared or never set). *)
Record App : Type := mkApp
  { cur : Hooks; onVis : Hooks; tickRef : option Hooks }.

(** What the component does to its environment. *)
Inductive Effect : Type :=
| Alert (msg : string)
| WindowOpen (href target : string)
| Confirm (msg : string) (answer : bool).

(** ** Derived values (lines 70-71) *)

Definition pledgedCents (s : Hooks) : Z := treats s * pledgeRateCents s.
Definition outstandingCents (s : Hooks) : Z :=
  Z.max 0 (pledgedCents s - donatedCents s).

(** ** Text *)

(** [String(n)] of an integer. *)
Definition showZ (n : Z) : string := NilZero.string_of_int (Z.to_int n).

(** [(cents/100).toFixed(2)] of a whole number of cents that is not
    negative, the only numbers [donateNow] formats. *)
Definition toFixed2 (cents : Z) : string :=
  let c := cents mod 100 in
  showZ (cents / 100) ++ "." ++ (if (c <? 10)%Z then "0" else "") ++ showZ c.

(** ** The closures of one render *)

Section Render.

(** The cells as the render read them. *)
Variable env : Hooks.

(** Line 73. *)
Definition start (s : Hooks) : Hooks :=
  setMessage "" (setRunning true (setStatus Running s)).

(** Line 74. *)
Definition reset (s : Hooks) : Hooks :=
  setRemaining (duration env)
    (setMessage "" (setStatus Idle (setRunning false s))).

(** Lines 75-80; [treats] and [history] go through updaters, so they
    start from the cell, while [treatsPerSuccess] and [duration] are the
    render's. *)
Definition complete (now : string) (s : Hooks) : Hooks :=
  let s1 := setStatus Done (setRunning false s) in
  let s2 := setTreats (treats s1 + treatsPerSuccess env) s1 in
  let s3 :=
    setHistory
      (Entry.mk now (duration env) true (Some (treatsPerSuccess env))
         :: history s2) s2 in
  setMessage ("Nice! +" ++ showZ (treatsPerSuccess env) ++ " 🦴 earned") s3.

(** Lines 81-85; [duration - remaining] is computed from the render's
    variables, outside the updater. *)
Definition fail (note now : string) (s : Hooks) : Hooks :=
  let s1 := setStatus Failed (setRunning false s) in
  let s2 :=
    setHistory
      (Entry.mk now (duration env - remaining env) false None
         :: history s1) s1 in
  setMessage (if note =? "" then "Failed" else note) s2.

(** The guard of line 87: [!shelter?.url || shelter.url === "https://"]. *)
Definition urlUnset : bool :=
  match shelter env with
  | None => true
  | Some sh => (url sh =? "") || (url sh =? "https://")
  end.

Definition shelterUrl : string :=
  match shelter env with None => "" | Some sh => url sh end.

(** Lines 86-94, as the effects performed and the update queued. *)
Definition donateNow (answer : bool) : list Effect * (Hooks -> Hooks) :=
  if urlUnset then ([Alert "Add shelter URL in Settings."], fun s => s)
  else if (outstandingCents env <=? 0)%Z then
    ([Alert "No outstanding pledge."], fun s => s)
  else
    let amount := toFixed2 (outstandingCents env) in
    ([WindowOpen shelterUrl "_blank";
      Confirm ("Mark $" ++ amount ++ " as donated?") answer],
     if answer then
       fun s =>
         setMessage ("Marked $" ++ amount ++ " donated 🐶❤️")
           (setDonatedCents (donatedCents s + outstandingCents env) s)
     else fun s => s).

End Render.

(** ** Rendering and effects *)

(** The effects that run after a render, [prev] being the cells of the
    render before it.  Line 51 resynchronises [remaining] when [duration] or
    [status] changed and the status is idle; lines 53-57 reinstall the
    listener, and lines 59-68 clear the interval and, when running, install
    a new one, each from the render at hand.  The render that the update of
    line 51 causes changes no dependency, so no effect runs after it. *)
Definition syncIdle (s : Hooks) : Hooks :=
  match status s with Idle => setRemaining (duration s) s | _ => s end.

Definition effects (prev : Hooks) (a : App) : App :=
  let s := cur a in
  let sameRunning := Bool.eqb (running prev) (running s) in
  let vis :=
    if sameRunning && Bool.eqb (strictMode prev) (strictMode s)
    then onVis a else s in
  let itv :=
    if sameRunning then tickRef a
    else if running s then Some s else None in
  let s' :=
    if (duration prev =? duration s)%Z && Status_eqb (status prev) (status s)
    then s else syncIdle s in
  mkApp s' vis itv.

(** An event handler queues the updates [f]; React applies them, renders and
    runs the effects. *)
Definition update (f : Hooks -> Hooks) (a : App) : App :=
  effects (cur a) (mkApp (f (cur a)) (onVis a) (tickRef a)).

(** The first render (lines 25-38) and its effects: [remaining] starts at
    [duration], the listener is installed, no interval is. *)
Definition mount (duration0 : Z) (strict0 : bool) (tps0 rate0 : Z)
    (shelter0 : option Shelter) (treats0 donated0 : Z)
    (history0 : list Entry.t) : App :=
  let s :=
    mkHooks duration0 strict0 tps0 rate0 shelter0 duration0 false Idle ""
      treats0 donated0 history0 in
  mkApp s s None.

(** ** Events *)

(** One firing of the interval (lines 61-65).  The callback and the
    [complete] it calls belong to the render that installed the interval;
    [r] is the cell. *)
Definition tick (now : string) (a : App) : App :=
  match tickRef a with
  | None => a
  | Some env =>
      if (remaining (cur a) <=? 1)%Z then
        effects (cur a)
          (mkApp (setRemaining 0 (complete env now (cur a))) (onVis a) None)
      else update (fun s => setRemaining (remaining s - 1) s) a
  end.

(** A [visibilitychange] event (line 54); [hidden] is [document.hidden].
    [running], [strictMode] and [fail] are those of the render that
    installed the listener. *)
Definition visibilitychange (hidden : bool) (now : string) (a : App) : App :=
  let env := onVis a in
  if hidden && running env && strictMode env
  then update (fail env "Left tab — tree died." now) a
  else a.

(** A handler of the last render called with the given note: what the
    specification names [giveUp(note)]. *)
Definition giveUp (note now : string) (a : App) : App :=
  update (fail (cur a) note now) a.

(** [start()] and [reset()] called from the last render. *)
Definition callStart (a : App) : App := update start a.
Definition callReset (a : App) : App := update (reset (cur a)) a.

(** A click on the one button of lines 106-107: "Give Up" while running,
    else "Start Focus" when idle and "Reset" otherwise. *)
Definition clickMain (now : string) (a : App) : App :=
  if running (cur a) then giveUp "Stopped early" now a
  else match status (cur a) with
       | Idle => callStart a
       | _ => callReset a
       end.

(** A click on "Donate Now" (line 120), with the user's answer to
    [confirm]. *)
Definition clickDonate (answer : bool) (a : App) : App * list Effect :=
  let (out, f) := donateNow (cur a) answer in (update f a, out).

(** The settings: the setters of lines 25-29. *)
Inductive Setting : Type :=
| SetDuration (d : Z)
| SetStrictMode (b : bool)
| SetTreatsPerSuccess (n : Z)
| SetPledgeRateCents (n : Z)
| SetShelter (sh : option Shelter).

Definition change (c : Setting) (a : App) : App :=
  match c with
  | SetDuration d => update (setDuration d) a
  | SetStrictMode b => update (setStrictMode b) a
  | SetTreatsPerSuccess n => update (setTreatsPerSuccess n) a
  | SetPledgeRateCents n => update (setPledgeRateCents n) a
  | SetShelter sh => update (setShelter sh) a
  end.

Inductive Event : Type :=
| Tick (now : string)
| VisibilityChange (hidden : bool) (now : string)
| ClickMain (now : string)
| ClickDonate (answer : bool)
| Change (c : Setting).

Definition isChange (e : Event) : bool :=
  match e with Change _ => true | _ => false end.

Definition handle (e : Event) (a : App) : App :=
  match e with
  | Tick now => tick now a
  | VisibilityChange hidden now => visibilitychange hidden now a
  | ClickMain now => clickMain now a
  | ClickDonate answer => fst (clickDonate answer a)
  | Change c => change c a
  end.

(** Events in their order of arrival. *)
Definition run (es : list Event) (a : App) : App :=
  fold_left (fun acc e => handle e acc) es a.

(** The states the component can be in. *)
Inductive reachable : App -> Prop :=
| reachable_mount d strict tps rate sh t c h :
    reachable (mount d strict tps rate sh t c h)
| reachable_handle a e : reachable a -> reachable (handle e a).

(** Firings of the interval, one per time stamp. *)
Definition ticks (nows : list string) : list Event := map Tick nows.

(** The two alerts of [donateNow], under the names the specification gives
    to the failures they report (lines 87 and 88). *)
Definition ConfigurationError : Effect := Alert "Add shelter URL in Settings.".
Definition NothingToDonateError : Effect := Alert "No outstanding pledge.".

(** ** Invariants *)

(** [running] mirrors [status]; an interval is live exactly while running;
    the listener saw the current [running] and [strictMode]; an idle
    component shows the whole duration. *)
Record consistent (a : App) : Prop := mkConsistent
  { running_status : running (cur a) = true <-> status (cur a) = Running;
    interval_running : tickRef a = None <-> running (cur a) = false;
    listener_running : running (onVis a) = running (cur a);
    listener_strict : strictMode (onVis a) = strictMode (cur a);
    idle_remaining :
      status (cur a) = Idle -> remaining (cur a) = duration (cur a) }.

(** The pledge covers what was donated; the rate and the treats per success
    are not negative, nor are the treats that the live interval, built in an
    earlier render, will award. *)
Definition ledgerInv (a : App) : Prop :=
  0 <= pledgeRateCents (cur a) /\ 0 <= treatsPerSuccess (cur a) /\
  (forall env, tickRef a = Some env -> 0 <= treatsPerSuccess env) /\
  donatedCents (cur a) <= pledgedCents (cur a).

(** ** Sample runs *)

Definition localShelter : option Shelter :=
  Some (mkShelter "Local Dog Shelter" "https://").

(** A first start with the fallback settings of lines 26-29 and a session of
    100 seconds. *)
Definition app100 : App := mount 100 true 5 2 localShelter 0 0 [].

(** The session started and 37 seconds gone. *)
Definition after37 : App := run (ticks (repeat "t" 37)) (callStart app100).

(** A session of one second, run to its end. *)
Definition doneApp : App :=
  run (ticks ["t1"]) (callStart (mount 1 true 5 2 localShelter 0 0 [])).

(** A shelter with a URL, 10 treats at 2 cents, 20 cents donated. *)
Definition settledApp : App :=
  mount 1500 true 5 2 (Some (mkShelter "Shelter" "https://shelter.example"))
    10 20 [].

(** A shelter with a URL, 10 treats at 2 cents, 5 cents donated. *)
Definition owingApp : App :=
  mount 1500 true 5 2 (Some (mkShelter "Shelter" "https://shelter.example"))
    10 5 [].

(** ** The helpers of the display (lines 8-10) *)

(** [s.padStart(2, "0")]. *)
Definition padStart2 (s : string) : string :=
  match String.length s with
  | 0%nat => "00"
  | 1%nat => "0" ++ s
  | _ => s
  end.

(** Line 8. *)
Definition pad2 (n : Z) : string := padStart2 (showZ n).

(** Line 9; [Math.floor(s / 60)] rounds down and [%] takes the sign of [s]. *)
Definition fmt (s : Z) : string := pad2 (s / 60) ++ ":" ++ pad2 (Z.rem s 60).

(** Line 10. *)
Definition clamp (n a b : Z) : Z := Z.max a (Z.min b n).

(** The character of a decimal digit. *)
Definition digit (d : Z) : Ascii.ascii := Ascii.ascii_of_nat (48 + Z.to_nat d).

(** ** Persistence (lines 12-22) *)

(** [localStorage] as [getItem] sees it: the text under a key, if any. *)
Definition Storage : Type := string -> option string.

Section Persistence.

(** The values JSON carries, with [JSON.parse] ([None]: it throws) and
    [JSON.stringify]; and whether [setItem] accepts a text or throws, as it
    does when the quota is exceeded. *)
Variable J : Type.
Variable parse : string -> option J.
Variable stringify : J -> string.
Variable fits : Storage -> string -> string -> bool.

Definition setItem (key v : string) (st : Storage) : option Storage :=
  if fits st key v
  then Some (fun k => if k =? key then Some v else st k)
  else None.

(** Lines 12-19: a missing key and an empty text are both falsy; a text that
    does not parse throws into the [catch]. *)
Definition load (key : string) (fallback : J) (st : Storage) : J :=
  match st key with
  | None => fallback
  | Some v =>
      if v =? "" then fallback
      else match parse v with Some j => j | None => fallback end
  end.

(** Lines 20-22: what [setItem] throws is swallowed. *)
Definition save (key : string) (v : J) (st : Storage) : Storage :=
  match setItem key (stringify v) st with
  | Some st' => st'
  | None => st
  end.

End Persistence.

(** JSON on the booleans, the values of the strict-mode flag. *)
Definition stringifyBool (b : bool) : string := if b then "true" else "false".
Definition parseBool (s : string) : option bool :=
  if s =? "true" then Some true
  else if s =? "false" then Some false
  else None.

(** A storage with no key, and a quota of 64 characters a text. *)
Definition emptyStorage : Storage := fun _ => None.
Definition fits64 (st : Storage) (key v : string) : bool :=
  (String.length v <=? 64)%nat.

(** The display of [s] seconds as two digits of minutes and two of seconds. *)
Definition mmss (s : Z) : string :=
  String (digit (s / 600)) (String (digit (s / 60 mod 10)) "") ++ ":" ++
  String (digit (s mod 60 / 10)) (String (digit (s mod 10)) "").

(** One whole session from the main button: "Start Focus", a firing of the
    interval for each of the [D] seconds, "Reset"; and [k] of them in a
    row. *)
Definition fullSession (D : Z) (now : string) : list Event :=
  ClickMain now :: ticks (repeat now (Z.to_nat D)) ++ [ClickMain now].
Definition sessions (k : nat) (D : Z) (now : string) : list Event :=
  concat (repeat (fullSession D now) k).

(** ** What the history shows *)

(** The treats the entries of a history display, summed: [+earnedTreats] on a
    success, nothing on a failure (line 125). *)
Definition earned (h : list Entry.t) : Z :=
  fold_right
    (fun e acc =>
       match Entry.earnedTreats e with Some n => n + acc | None => acc end)
    0 h.

(** The settings of a render, together. *)
Definition settings (s : Hooks) : Z * bool * Z * Z * option Shelter :=
  (duration s, strictMode s, treatsPerSuccess s, pledgeRateCents s, shelter s).

(** No event of the list is a change of settings. *)
Definition noChange (es : list Event) : bool :=
  forallb (fun e => negb (isChange e)) es.

(** The countdown, the listener and the interval stay within the duration
    [d], and so does every entry of the history. *)
Definition within (d : Z) (a : App) : Prop :=
  duration (cur a) = d /\ 0 <= remaining (cur a) <= d /\
  duration (onVis a) = d /\ 0 <= remaining (onVis a) <= d /\
  (forall env, tickRef a = Some env -> duration env = d) /\
  Forall (fun e => 0 <= Entry.duration e <= d) (history (cur a)).

(** ** Basic facts *)

Lemma Status_eqb_refl (x : Status) : Status_eqb x x = true.
Proof. destruct x; reflexivity. Qed.

Lemma Status_eqb_eq (x y : Status) : Status_eqb x y = true <-> x = y.
Proof. destruct x, y; simpl; split; congruence. Qed.

Lemma eta_App (a : App) : a = mkApp (cur a) (onVis a) (tickRef a).
Proof. destruct a; reflexivity. Qed.

(** Effects leave the component alone when no dependency changed. *)
Lemma effects_same (p : Hooks) (a : App) :
  running p = running (cur a) -> strictMode p = strictMode (cur a) ->
  duration p = duration (cur a) -> status p = status (cur a) ->
  effects p a = a.
Proof.
  intros Hr Hs Hd Ht. unfold effects.
  rewrite Hr, Hs, Hd, Ht, !Bool.eqb_reflx, Z.eqb_refl, Status_eqb_refl.
  simpl. symmetry. apply eta_App.
Qed.

(** Effects write [remaining] only. *)
Lemma effects_cells (p : Hooks) (a : App) :
  cur (effects p a) = cur a \/
  cur (effects p a) = setRemaining (duration (cur a)) (cur a)
  /\ status (cur a) = Idle.
Proof.
  unfold effects, syncIdle; simpl.
  destruct ((duration p =? duration (cur a))%Z
            && Status_eqb (status p) (status (cur a))); auto.
  destruct (status (cur a)); auto.
Qed.

Lemma run_app (es fs : list Event) (a : App) :
  run (es ++ fs) a = run fs (run es a).
Proof. apply fold_left_app. Qed.

(** ** The countdown *)

Lemma tick_running (now : string) (a : App) (env : Hooks) :
  tickRef a = Some env -> 1 < remaining (cur a) ->
  tick now a =
  mkApp (setRemaining (remaining (cur a) - 1) (cur a)) (onVis a) (tickRef a).
Proof.
  intros He Hr. unfold tick. rewrite He.
  destruct (Z.leb_spec (remaining (cur a)) 1); [lia|].
  unfold update. rewrite effects_same by reflexivity.
  rewrite He. reflexivity.
Qed.

Lemma tick_last (now : string) (a : App) (env : Hooks) :
  tickRef a = Some env -> remaining (cur a) <= 1 -> running (cur a) = true ->
  tick now a =
  (let s := setRemaining 0 (complete env now (cur a)) in mkApp s s None).
Proof.
  intros He Hr Hrun. unfold tick. rewrite He.
  destruct (Z.leb_spec (remaining (cur a)) 1); [|lia].
  unfold effects. simpl. rewrite Hrun. simpl.
  destruct (_ && _); reflexivity.
Qed.

Lemma ticks_running (nows : list string) :
  forall (a : App) (env : Hooks),
    tickRef a = Some env -> Z.of_nat (length nows) < remaining (cur a) ->
    run (ticks nows) a =
    mkApp (setRemaining (remaining (cur a) - Z.of_nat (length nows)) (cur a))
      (onVis a) (tickRef a).
Proof.
  induction nows as [|now nows IH]; intros a env He Hr.
  - simpl. rewrite Z.sub_0_r. destruct a as [[] ? ?]; reflexivity.
  - cbn [ticks map run fold_left handle].
    change (length (now :: nows)) with (S (length nows)) in *.
    rewrite (tick_running now a env He) by lia.
    fold (run (ticks nows)
            (mkApp (setRemaining (remaining (cur a) - 1) (cur a))
               (onVis a) (tickRef a))).
    rewrite (IH _ env) by (simpl; auto; lia).
    simpl. f_equal. unfold setRemaining; simpl. f_equal. lia.
Qed.

(** ** What holds in every state of the component *)

Lemma mount_consistent d strict tps rate sh t c h :
  consistent (mount d strict tps rate sh t c h).
Proof. constructor; simpl; intuition congruence. Qed.

Lemma syncIdle_cells (s : Hooks) :
  running (syncIdle s) = running s /\ status (syncIdle s) = status s /\
  strictMode (syncIdle s) = strictMode s /\ duration (syncIdle s) = duration s
  /\ (status s = Idle -> remaining (syncIdle s) = duration s).
Proof.
  unfold syncIdle. destruct (status s) eqn:E; simpl; intuition congruence.
Qed.

Lemma update_consistent (f : Hooks -> Hooks) (a : App) :
  consistent a ->
  (running (f (cur a)) = true <-> status (f (cur a)) = Running) ->
  (status (f (cur a)) = Idle -> status (cur a) = Idle ->
   duration (f (cur a)) = duration (cur a) ->
   remaining (f (cur a)) = duration (f (cur a))) ->
  consistent (update f a).
Proof.
  intros [Hrs Hir Hlr Hls Hid] Hrs' Hid'.
  unfold update, effects. cbn [cur onVis tickRef].
  set (s := cur a) in *. set (s' := f s) in *.
  destruct (syncIdle_cells s') as (C1 & C2 & C3 & C4 & C5).
  assert (Hitv :
    (if Bool.eqb (running s) (running s') then tickRef a
     else if running s' then Some s' else None) = None
    <-> running s' = false).
  { destruct (Bool.eqb (running s) (running s')) eqn:E.
    - apply Bool.eqb_prop in E. rewrite <- E. exact Hir.
    - destruct (running s'); split; congruence. }
  assert (Hvis :
    let v := if Bool.eqb (running s) (running s')
                && Bool.eqb (strictMode s) (strictMode s')
             then onVis a else s' in
    running v = running s' /\ strictMode v = strictMode s').
  { destruct (Bool.eqb (running s) (running s')) eqn:E1;
      destruct (Bool.eqb (strictMode s) (strictMode s')) eqn:E2;
      simpl; auto.
    apply Bool.eqb_prop in E1, E2. split; congruence. }
  destruct Hvis as [Hv1 Hv2].
  destruct ((duration s =? duration s')%Z && Status_eqb (status s) (status s'))
    eqn:Hdeps.
  - apply andb_true_iff in Hdeps as [Hd Hst].
    apply Z.eqb_eq in Hd. apply Status_eqb_eq in Hst.
    constructor; cbn [cur onVis tickRef]; auto.
    intros Hi. apply Hid'; congruence.
  - constructor; cbn [cur onVis tickRef]; rewrite ?C1, ?C2, ?C3, ?C4; auto.
Qed.

Lemma tick_consistent (now : string) (a : App) :
  consistent a -> consistent (tick now a).
Proof.
  intros Ha. destruct (tickRef a) as [env|] eqn:He.
  - assert (Hrun : running (cur a) = true).
    { destruct (running (cur a)) eqn:E; auto.
      apply (interval_running a Ha) in E. congruence. }
    destruct (Z.le_gt_cases (remaining (cur a)) 1) as [Hr|Hr].
    + rewrite (tick_last now a env He Hr Hrun).
      constructor; simpl; intuition congruence.
    + unfold tick. rewrite He.
      destruct (Z.leb_spec (remaining (cur a)) 1); [lia|].
      apply update_consistent; auto; simpl.
      * apply (running_status a Ha).
      * intros Hi _ _. apply (running_status a Ha) in Hrun. congruence.
  - unfold tick. rewrite He. exact Ha.
Qed.

Lemma fail_consistent (env : Hooks) (note now : string) (a : App) :
  consistent a -> consistent (update (fail env note now) a).
Proof.
  intros Ha. apply update_consistent; auto; simpl; intuition congruence.
Qed.

Lemma callStart_consistent (a : App) : consistent a -> consistent (callStart a).
Proof.
  intros Ha. apply update_consistent; auto; simpl; intuition congruence.
Qed.

Lemma callReset_consistent (a : App) : consistent a -> consistent (callReset a).
Proof.
  intros Ha. apply update_consistent; auto; simpl; intuition congruence.
Qed.

Lemma clickDonate_consistent (answer : bool) (a : App) :
  consistent a -> consistent (fst (clickDonate answer a)).
Proof.
  intros Ha. unfold clickDonate, donateNow.
  destruct (urlUnset (cur a)); [|destruct (_ <=? _)%Z; [|destruct answer]];
    cbn [fst]; apply update_consistent; auto; simpl;
    try apply (running_status a Ha); intros; apply (idle_remaining a Ha); auto.
Qed.

Lemma change_consistent (c : Setting) (a : App) :
  consistent a -> consistent (change c a).
Proof.
  intros Ha. destruct c; apply update_consistent; auto; simpl;
    try apply (running_status a Ha); intros;
    try (apply (idle_remaining a Ha); assumption).
  subst d. apply (idle_remaining a Ha); assumption.
Qed.

Lemma handle_consistent (e : Event) (a : App) :
  consistent a -> consistent (handle e a).
Proof.
  intros Ha. destruct e as [now|hidden now|now|answer|c]; cbn [handle].
  - now apply tick_consistent.
  - unfold visibilitychange.
    destruct (hidden && running (onVis a) && strictMode (onVis a)); auto.
    now apply fail_consistent.
  - unfold clickMain, giveUp. destruct (running (cur a)).
    + now apply fail_consistent.
    + destruct (status (cur a));
        auto using callStart_consistent, callReset_consistent.
  - now apply clickDonate_consistent.
  - now apply change_consistent.
Qed.

Lemma reachable_consistent (a : App) : reachable a -> consistent a.
Proof.
  induction 1; auto using mount_consistent, handle_consistent.
Qed.

Lemma run_reachable (es : list Event) :
  forall a : App, reachable a -> reachable (run es a).
Proof.
  induction es as [|e es IH]; intros a Ha; [exact Ha|].
  apply (IH (handle e a)). now apply reachable_handle.
Qed.

(** ** Sessions *)

(** On an idle component the main button is "Start Focus". *)
Lemma clickMain_idle (now : string) (a : App) :
  reachable a -> status (cur a) = Idle -> clickMain now a = callStart a.
Proof.
  intros Hre Hi. pose proof (reachable_consistent a Hre) as Ha.
  unfold clickMain. rewrite Hi. destruct (running (cur a)) eqn:E; auto.
  apply (running_status a Ha) in E. congruence.
Qed.

Lemma callStart_reachable (a : App) :
  reachable a -> status (cur a) = Idle -> reachable (callStart a).
Proof.
  intros Hre Hi. rewrite <- (clickMain_idle "" a Hre Hi).
  apply (reachable_handle a (ClickMain "")), Hre.
Qed.

(** Starting installs the listener and the interval from the render in which
    [running] turned true. *)
Lemma callStart_idle (a : App) :
  running (cur a) = false ->
  callStart a =
  mkApp (start (cur a)) (start (cur a)) (Some (start (cur a))).
Proof.
  intros Hrun. unfold callStart, update, effects. cbn [cur onVis tickRef].
  replace (running (start (cur a))) with true by reflexivity.
  rewrite Hrun. cbn [Bool.eqb andb].
  destruct (_ && _); reflexivity.
Qed.

Lemma reachable_idle (a : App) :
  reachable a -> status (cur a) = Idle ->
  running (cur a) = false /\ remaining (cur a) = duration (cur a).
Proof.
  intros Hre Hi. apply reachable_consistent in Hre. split.
  - destruct (running (cur a)) eqn:E; auto.
    apply (running_status a Hre) in E. congruence.
  - now apply (idle_remaining a Hre).
Qed.

(** A session under way: started from idle, [n] ticks received, [n] less
    than the duration. *)
Lemma session_under_way (a : App) (nows : list string) :
  reachable a -> status (cur a) = Idle ->
  Z.of_nat (length nows) < duration (cur a) ->
  run (ticks nows) (callStart a) =
  mkApp
    (setRemaining (duration (cur a) - Z.of_nat (length nows)) (start (cur a)))
    (start (cur a)) (Some (start (cur a))).
Proof.
  intros Hre Hi Hn. destruct (reachable_idle a Hre Hi) as [Hrun Hrem].
  rewrite (callStart_idle a Hrun).
  rewrite (ticks_running nows _ (start (cur a))); cbn [cur onVis tickRef];
    auto.
  - simpl. now rewrite Hrem.
  - simpl. now rewrite Hrem.
Qed.

(** C1.  From any idle state of the component with a duration [D > 0],
    [start()] followed by exactly [D] ticks ends with [status] done,
    [remaining] 0 and the clock stopped; [treats] has grown by exactly
    [treatsPerSuccess], and [history] is the former history with one entry in
    front, a success of duration [D] that earned [treatsPerSuccess], stamped
    with the time of the last tick. *)
Theorem C1_tick_to_zero (a : App) (D : Z) (nows : list string) :
  reachable a -> status (cur a) = Idle -> duration (cur a) = D -> 0 < D ->
  Z.of_nat (length nows) = D ->
  let b := run (ticks nows) (callStart a) in
  status (cur b) = Done /\ remaining (cur b) = 0 /\
  running (cur b) = false /\ tickRef b = None /\
  treats (cur b) = treats (cur a) + treatsPerSuccess (cur a) /\
  history (cur b) =
    Entry.mk (last nows "") D true (Some (treatsPerSuccess (cur a)))
      :: history (cur a).
Proof.
  intros Hre Hi HD Hpos Hlen b. subst b.
  destruct (exists_last (l := nows)) as (l & x & ->).
  { intros ->. simpl in Hlen. lia. }
  rewrite length_app in Hlen. cbn [length] in Hlen.
  unfold ticks. rewrite map_app, run_app. fold (ticks l).
  rewrite session_under_way by (auto; lia).
  cbn [map run fold_left handle]. rewrite last_last.
  erewrite tick_last; cbn [cur onVis tickRef]; try reflexivity.
  - simpl. subst D. repeat split; reflexivity.
  - simpl. lia.
Qed.

Lemma C1_tick_to_zero_witness :
  let b :=
    run (ticks ["t1"; "t2"; "t3"]) (callStart (mount 3 true 5 2 None 7 0 []))
  in
  status (cur b) = Done /\ remaining (cur b) = 0 /\
  running (cur b) = false /\ tickRef b = None /\
  treats (cur b) = 7 + 5 /\
  history (cur b) = [Entry.mk "t3" 3 true (Some 5)].
Proof.
  apply (C1_tick_to_zero (mount 3 true 5 2 None 7 0 []) 3 ["t1"; "t2"; "t3"]).
  - apply reachable_mount.
  - reflexivity.
  - reflexivity.
  - lia.
  - reflexivity.
Defined.

(** Giving up [n] seconds into a session, from the render on screen. *)
Lemma giveUp_under_way (a : App) (nows : list string) (note now : string) :
  reachable a -> status (cur a) = Idle ->
  Z.of_nat (length nows) < duration (cur a) ->
  let b := giveUp note now (run (ticks nows) (callStart a)) in
  status (cur b) = Failed /\ running (cur b) = false /\ tickRef b = None /\
  message (cur b) = (if note =? "" then "Failed" else note) /\
  treats (cur b) = treats (cur a) /\
  history (cur b) =
    Entry.mk now (Z.of_nat (length nows)) false None :: history (cur a).
Proof.
  intros Hre Hi Hn b. subst b. rewrite session_under_way by auto.
  unfold giveUp, update, effects. cbn [cur onVis tickRef].
  simpl. destruct (_ && _); simpl; repeat split; f_equal; f_equal; lia.
Qed.

(** C2, as the code has it.  With a duration of 100 seconds, [start()], 37
    ticks and then giving up put in front of [history] a failure whose
    duration is 37, which is [duration - remaining] with [remaining] at 63;
    [treats] is unchanged. *)
Theorem C2_early_failure_duration
    (a : App) (nows : list string) (note now : string) :
  reachable a -> status (cur a) = Idle -> duration (cur a) = 100 ->
  length nows = 37%nat ->
  let s := run (ticks nows) (callStart a) in
  let b := giveUp note now s in
  remaining (cur s) = 63 /\
  history (cur b) = Entry.mk now 37 false None :: history (cur a) /\
  treats (cur b) = treats (cur a).
Proof.
  intros Hre Hi HD Hlen s b.
  destruct (giveUp_under_way a nows note now Hre Hi) as (_ & _ & _ & _ & Ht & Hh).
  { rewrite Hlen, HD. reflexivity. }
  fold s in Ht, Hh. fold b in Ht, Hh. rewrite Hlen in Hh.
  repeat split; auto.
  subst s. rewrite session_under_way by (auto; rewrite Hlen, HD; reflexivity).
  simpl. rewrite HD, Hlen. reflexivity.
Qed.

Lemma C2_early_failure_duration_witness :
  remaining (cur after37) = 63 /\
  history (cur (giveUp "" "g" after37)) = [Entry.mk "g" 37 false None] /\
  treats (cur (giveUp "" "g" after37)) = 0.
Proof.
  apply (C2_early_failure_duration app100 (repeat "t" 37) "" "g").
  - apply reachable_mount.
  - reflexivity.
  - reflexivity.
  - reflexivity.
Defined.

(** C2, as the claim words it, fails: on a first session of 100 seconds the
    history after 37 ticks and a give-up holds one entry, of duration 37, and
    no failure of duration 63. *)
Lemma C2_no_entry_of_63 :
  let b := giveUp "" "g" after37 in
  history (cur b) = [Entry.mk "g" 37 false None] /\
  ~ (exists e, In e (history (cur b)) /\
               Entry.success e = false /\ Entry.duration e = 63).
Proof.
  intros b.
  assert (Hh : history (cur b) = [Entry.mk "g" 37 false None])
    by (vm_compute; reflexivity).
  split; [exact Hh|]. rewrite Hh.
  intros (e & [<-|[]] & _ & H). discriminate H.
Qed.

(** ** Loss of visibility *)

(** Nothing happens unless the page is hidden while a session runs in strict
    mode. *)
Lemma visibilitychange_noop (hidden : bool) (now : string) (a : App) :
  consistent a ->
  hidden = false \/ running (cur a) = false \/ strictMode (cur a) = false ->
  visibilitychange hidden now a = a.
Proof.
  intros Ha H. unfold visibilitychange.
  rewrite (listener_running a Ha), (listener_strict a Ha).
  destruct H as [-> | [-> | ->]]; auto.
  - now rewrite andb_false_r.
  - now rewrite andb_false_r.
Qed.

(** When it does, the [fail] that runs is the one of the render that
    installed the listener. *)
Lemma visibilitychange_strict (now : string) (a : App) :
  consistent a -> running (cur a) = true -> strictMode (cur a) = true ->
  visibilitychange true now a =
  update (fail (onVis a) "Left tab — tree died." now) a.
Proof.
  intros Ha Hr Hs. unfold visibilitychange.
  now rewrite (listener_running a Ha), (listener_strict a Ha), Hr, Hs.
Qed.

(** That render is the one in which [running] turned true: its [remaining] is
    the whole duration whatever the number of ticks since, and the entry
    logged has duration 0. *)
Lemma strict_violation_under_way (a : App) (nows : list string) (now : string) :
  reachable a -> status (cur a) = Idle -> strictMode (cur a) = true ->
  Z.of_nat (length nows) < duration (cur a) ->
  let b := visibilitychange true now (run (ticks nows) (callStart a)) in
  status (cur b) = Failed /\ running (cur b) = false /\ tickRef b = None /\
  message (cur b) = "Left tab — tree died." /\
  treats (cur b) = treats (cur a) /\
  history (cur b) = Entry.mk now 0 false None :: history (cur a).
Proof.
  intros Hre Hi Hs Hn b. subst b. rewrite session_under_way by auto.
  destruct (reachable_idle a Hre Hi) as [_ Hrem].
  unfold visibilitychange, update, effects. cbn [cur onVis tickRef].
  simpl. rewrite Hs. simpl.
  destruct (_ && _); simpl; repeat split; f_equal; f_equal; lia.
Qed.

(** C3, on a first session of 100 seconds in strict mode.  After 37 ticks
    [duration - remaining] is 37, and giving up logs 37; the page losing
    visibility at the same moment logs a failure of duration 0.  [treats]
    stays at 0 in both. *)
Theorem C3_strict_violation_logs_zero :
  strictMode (cur after37) = true /\ status (cur after37) = Running /\
  duration (cur after37) - remaining (cur after37) = 37 /\
  history (cur (giveUp "Stopped early" "v" after37)) =
    [Entry.mk "v" 37 false None] /\
  history (cur (visibilitychange true "v" after37)) =
    [Entry.mk "v" 0 false None] /\
  treats (cur (visibilitychange true "v" after37)) = treats (cur after37).
Proof. vm_compute. repeat split; reflexivity. Qed.

(** C4, on the same session.  The visibility-lost signal and
    [giveUp("Left tab — tree died.")] agree on [status], [running], the
    interval and [message], and differ in the entry they log: duration 0
    against 37. *)
Theorem C4_visibility_lost_differs_from_giveUp :
  let v := visibilitychange true "v" after37 in
  let g := giveUp "Left tab — tree died." "v" after37 in
  status (cur v) = status (cur g) /\ running (cur v) = running (cur g) /\
  tickRef v = tickRef g /\ message (cur v) = message (cur g) /\
  map Entry.duration (history (cur v)) = [0] /\
  map Entry.duration (history (cur g)) = [37] /\
  v <> g.
Proof.
  intros v g.
  assert (Hv : map Entry.duration (history (cur v)) = [0])
    by (vm_compute; reflexivity).
  assert (Hg : map Entry.duration (history (cur g)) = [37])
    by (vm_compute; reflexivity).
  split; [vm_compute; reflexivity|].
  split; [vm_compute; reflexivity|].
  split; [vm_compute; reflexivity|].
  split; [vm_compute; reflexivity|].
  split; [exact Hv|]. split; [exact Hg|].
  intros E. rewrite E, Hg in Hv. discriminate Hv.
Qed.

(** ** Starting *)






(** ** Donating *)

Lemma urlUnset_spec (s : Hooks) :
  urlUnset s = true <->
  shelter s = None \/
  exists sh, shelter s = Some sh /\ (url sh = "" \/ url sh = "https://").
Proof.
  unfold urlUnset. destruct (shelter s) as [sh|]; [|intuition].
  rewrite orb_true_iff, !String.eqb_eq. split.
  - intros H. right. now exists sh.
  - intros [H | (sh' & [= <-] & H)]; [discriminate|exact H].
Qed.

Lemma update_id (a : App) : update (fun s => s) a = a.
Proof. unfold update. rewrite effects_same by reflexivity. now destruct a. Qed.

(** The three ways through [donateNow]. *)
Lemma clickDonate_cases (answer : bool) (a : App) :
  clickDonate answer a =
  if urlUnset (cur a) then (a, [ConfigurationError])
  else if (outstandingCents (cur a) <=? 0)%Z then (a, [NothingToDonateError])
  else
    let amount := toFixed2 (outstandingCents (cur a)) in
    (if answer then
       mkApp
         (setMessage ("Marked $" ++ amount ++ " donated 🐶❤️")
            (setDonatedCents
               (donatedCents (cur a) + outstandingCents (cur a)) (cur a)))
         (onVis a) (tickRef a)
     else a,
     [WindowOpen (shelterUrl (cur a)) "_blank";
      Confirm ("Mark $" ++ amount ++ " as donated?") answer]).
Proof.
  unfold clickDonate, donateNow.
  destruct (urlUnset (cur a)); [now rewrite update_id|].
  destruct (_ <=? _)%Z; [now rewrite update_id|].
  destruct answer; [|now rewrite update_id].
  unfold update. now rewrite effects_same by reflexivity.
Qed.

(** C6.  With the shelter URL missing, empty or still the placeholder
    [https://], [donateNow] alerts the configuration error and stops; with
    nothing outstanding it alerts that there is nothing to donate and stops,
    the URL check coming first when both hold.  In either case the state is
    the one before, and the only effect is the alert: no window is opened
    and no confirmation is asked. *)
Theorem C6_donateNow_guards (answer : bool) (a : App) :
  (urlUnset (cur a) = true ->
   clickDonate answer a = (a, [ConfigurationError])) /\
  (outstandingCents (cur a) <= 0 ->
   clickDonate answer a =
   (a, [if urlUnset (cur a) then ConfigurationError
        else NothingToDonateError])).
Proof.
  rewrite clickDonate_cases. split.
  - now intros ->.
  - intros Ho. destruct (urlUnset (cur a)); [reflexivity|].
    destruct (Z.leb_spec (outstandingCents (cur a)) 0); [reflexivity|lia].
Qed.

Lemma C6_donateNow_guards_witness :
  clickDonate true app100 = (app100, [ConfigurationError]) /\
  clickDonate true settledApp = (settledApp, [NothingToDonateError]).
Proof.
  split.
  - apply (proj1 (C6_donateNow_guards true app100)). reflexivity.
  - apply (proj2 (C6_donateNow_guards true settledApp)). vm_compute.
    discriminate.
Defined.

(** C7.  [donateNow] never lowers [donatedCents].  Past the two guards, a
    confirmed donation adds to [donatedCents] exactly the [outstandingCents]
    of the render the click came from, after which [outstandingCents] is 0,
    [treats] and the rate being untouched; a declined one leaves the state as
    it was, and its only effects are the window opened and the question
    asked. *)
Theorem C7_donation_monotone (answer : bool) (a : App) :
  donatedCents (cur a) <= donatedCents (cur (fst (clickDonate answer a))) /\
  (urlUnset (cur a) = false -> 0 < outstandingCents (cur a) ->
   let b := fst (clickDonate true a) in
   donatedCents (cur b) = donatedCents (cur a) + outstandingCents (cur a) /\
   outstandingCents (cur b) = 0 /\
   treats (cur b) = treats (cur a) /\
   pledgeRateCents (cur b) = pledgeRateCents (cur a)) /\
  (urlUnset (cur a) = false -> 0 < outstandingCents (cur a) ->
   clickDonate false a =
   (a, [WindowOpen (shelterUrl (cur a)) "_blank";
        Confirm ("Mark $" ++ toFixed2 (outstandingCents (cur a))
                 ++ " as donated?") false])).
Proof.
  rewrite !clickDonate_cases. split; [|split].
  - destruct (urlUnset (cur a)); [simpl; lia|].
    destruct (_ <=? _)%Z; [simpl; lia|].
    destruct answer; simpl; [|lia].
    unfold outstandingCents. lia.
  - intros -> Ho. destruct (Z.leb_spec (outstandingCents (cur a)) 0); [lia|].
    cbn [fst cur]. repeat split; try reflexivity.
    unfold outstandingCents, pledgedCents in *. simpl. lia.
  - intros -> Ho. destruct (Z.leb_spec (outstandingCents (cur a)) 0); [lia|].
    reflexivity.
Qed.

Lemma C7_donation_monotone_witness :
  (let b := fst (clickDonate true owingApp) in
   donatedCents (cur b) = 5 + 15 /\ outstandingCents (cur b) = 0 /\
   treats (cur b) = 10 /\ pledgeRateCents (cur b) = 2) /\
  clickDonate false owingApp =
  (owingApp,
   [WindowOpen "https://shelter.example" "_blank";
    Confirm "Mark $0.15 as donated?" false]).
Proof.
  split.
  - apply (proj1 (proj2 (C7_donation_monotone true owingApp)));
      [reflexivity | vm_compute; reflexivity].
  - apply (proj2 (proj2 (C7_donation_monotone true owingApp)));
      [reflexivity | vm_compute; reflexivity].
Defined.

(** ** Resetting *)

(** The cells after [reset()]: the effect of line 51 finds [remaining] already
    at the duration. *)
Lemma callReset_cells (a : App) : cur (callReset a) = reset (cur a) (cur a).
Proof.
  unfold callReset, update.
  destruct (effects_cells (cur a)
              (mkApp (reset (cur a) (cur a)) (onVis a) (tickRef a)))
    as [-> | [-> _]]; reflexivity.
Qed.

(** C8.  [reset()] from any state whatever leaves [treats], [donatedCents]
    and [history] as they were, and sets [status] to idle and [remaining] to
    the duration. *)
Theorem C8_reset_keeps_ledger (a : App) :
  let b := callReset a in
  treats (cur b) = treats (cur a) /\
  donatedCents (cur b) = donatedCents (cur a) /\
  history (cur b) = history (cur a) /\
  status (cur b) = Idle /\ remaining (cur b) = duration (cur a) /\
  duration (cur b) = duration (cur a) /\ running (cur b) = false.
Proof.
  cbv zeta. rewrite callReset_cells. repeat split; reflexivity.
Qed.

(** It also stops the clock. *)
Lemma callReset_stops_clock (a : App) :
  consistent a -> tickRef (callReset a) = None.
Proof.
  intros Ha. unfold callReset, update, effects. cbn [cur onVis tickRef].
  replace (running (reset (cur a) (cur a))) with false by reflexivity.
  destruct (running (cur a)) eqn:E; [reflexivity|].
  now apply (interval_running a Ha).
Qed.

(** ** The ledger *)

Lemma effects_ledger (p : Hooks) (a : App) :
  ledgerInv a -> ledgerInv (effects p a).
Proof.
  intros (Hrate & Htps & Henv & Hle). unfold ledgerInv.
  assert (Htick : forall env,
             tickRef (effects p a) = Some env -> 0 <= treatsPerSuccess env).
  { unfold effects. cbn [tickRef]. intros env.
    destruct (Bool.eqb _ _); [apply Henv|].
    destruct (running (cur a)); [|discriminate].
    now intros [= <-]. }
  destruct (effects_cells p a) as [-> | [-> _]]; auto.
Qed.

Lemma update_ledger (f : Hooks -> Hooks) (a : App) :
  ledgerInv a ->
  pledgeRateCents (f (cur a)) = pledgeRateCents (cur a) ->
  treatsPerSuccess (f (cur a)) = treatsPerSuccess (cur a) ->
  donatedCents (f (cur a)) <= pledgedCents (f (cur a)) ->
  ledgerInv (update f a) /\
  pledgeRateCents (cur (update f a)) = pledgeRateCents (cur a) /\
  treatsPerSuccess (cur (update f a)) = treatsPerSuccess (cur a).
Proof.
  intros (Hrate & Htps & Henv & Hle) Er Et Hle'. unfold update. split.
  - apply effects_ledger. unfold ledgerInv. cbn [cur tickRef].
    rewrite Er, Et. auto.
  - destruct (effects_cells (cur a) (mkApp (f (cur a)) (onVis a) (tickRef a)))
      as [-> | [-> _]]; auto.
Qed.

Lemma tick_ledger (now : string) (a : App) :
  ledgerInv a ->
  ledgerInv (tick now a) /\
  pledgeRateCents (cur (tick now a)) = pledgeRateCents (cur a) /\
  treatsPerSuccess (cur (tick now a)) = treatsPerSuccess (cur a).
Proof.
  intros Ha. pose proof Ha as (Hrate & Htps & Henv & Hle). unfold tick.
  destruct (tickRef a) as [env|] eqn:He; [|auto].
  destruct (_ <=? _)%Z.
  - specialize (Henv env eq_refl). split.
    + apply effects_ledger. unfold ledgerInv. cbn [cur tickRef].
      repeat split; auto; [discriminate|].
      unfold pledgedCents in *. simpl. nia.
    + match goal with
      | |- context [effects ?p ?x] =>
          destruct (effects_cells p x) as [-> | [-> _]]
      end; auto.
  - apply update_ledger; auto.
Qed.

Lemma handle_ledger (e : Event) (a : App) :
  isChange e = false -> ledgerInv a ->
  ledgerInv (handle e a) /\
  pledgeRateCents (cur (handle e a)) = pledgeRateCents (cur a) /\
  treatsPerSuccess (cur (handle e a)) = treatsPerSuccess (cur a).
Proof.
  intros He Ha. pose proof Ha as (Hrate & Htps & Henv & Hle).
  destruct e as [now|hidden now|now|answer|c]; [| | | |discriminate];
    cbn [handle].
  - now apply tick_ledger.
  - unfold visibilitychange. destruct (_ && _); auto.
    now apply update_ledger.
  - unfold clickMain, giveUp, callStart, callReset.
    destruct (running (cur a)); [now apply update_ledger|].
    destruct (status (cur a)); now apply update_ledger.
  - rewrite clickDonate_cases.
    destruct (urlUnset (cur a)); auto.
    destruct (_ <=? _)%Z; auto.
    destruct answer; auto. cbn [fst cur tickRef]. unfold ledgerInv.
    cbn [cur tickRef]. repeat split; auto.
    unfold outstandingCents, pledgedCents in *. simpl. lia.
Qed.

(** C9.  [donatedCents <= pledgedCents] holds after the first render when
    nothing was donated yet and treats, rate and treats per success are not
    negative.  With the settings left alone, every event keeps it: a tick
    (completion included), a loss of visibility, a click on the main button
    (start, give-up, reset), a click on "Donate Now" whatever the guards and
    the answer; so do [reset()] and a give-up called in any state.  Hence it
    holds after any run of such events. *)
Theorem C9_donated_le_pledged :
  (forall d strict tps rate sh t h,
     0 <= tps -> 0 <= rate -> 0 <= t ->
     ledgerInv (mount d strict tps rate sh t 0 h)) /\
  (forall a e,
     isChange e = false -> ledgerInv a ->
     ledgerInv (handle e a) /\
     pledgeRateCents (cur (handle e a)) = pledgeRateCents (cur a) /\
     treatsPerSuccess (cur (handle e a)) = treatsPerSuccess (cur a)) /\
  (forall a note now,
     ledgerInv a -> ledgerInv (callReset a) /\ ledgerInv (giveUp note now a)) /\
  (forall d strict tps rate sh t h es,
     0 <= tps -> 0 <= rate -> 0 <= t ->
     forallb (fun e => negb (isChange e)) es = true ->
     let a := run es (mount d strict tps rate sh t 0 h) in
     donatedCents (cur a) <= treats (cur a) * pledgeRateCents (cur a)).
Proof.
  assert (Hinit : forall d strict tps rate sh t h,
            0 <= tps -> 0 <= rate -> 0 <= t ->
            ledgerInv (mount d strict tps rate sh t 0 h)).
  { intros. unfold ledgerInv, pledgedCents. simpl.
    repeat split; auto; [discriminate|nia]. }
  split; [exact Hinit|].
  split; [intros a e; apply handle_ledger|]. split.
  - intros a note now Ha. pose proof Ha as (Hrate & Htps & Henv & Hle).
    split; now apply update_ledger.
  - intros d strict tps rate sh t h es Htps Hrate Ht Hes a.
    assert (Hrun : forall es b,
              forallb (fun e => negb (isChange e)) es = true ->
              ledgerInv b -> ledgerInv (run es b)).
    { clear. induction es as [|e es IH]; intros b Hes Hb; [exact Hb|].
      cbn [forallb] in Hes. apply andb_true_iff in Hes as [He Hes].
      apply negb_true_iff in He. apply (IH (handle e b) Hes).
      now apply handle_ledger. }
    apply (Hrun es _ Hes (Hinit d strict tps rate sh t h Htps Hrate Ht)).
Qed.

Lemma C9_donated_le_pledged_witness :
  ledgerInv app100 /\
  ledgerInv (handle (Tick "t") (callStart app100)) /\
  ledgerInv (callReset app100) /\
  (let a := run [ClickMain "c"; Tick "t1"; Tick "t2"; ClickDonate true]
              (mount 2 true 5 2 localShelter 0 0 []) in
   donatedCents (cur a) <= treats (cur a) * pledgeRateCents (cur a)).
Proof.
  destruct C9_donated_le_pledged as (Hinit & Hstep & Hcall & Hrun).
  assert (H0 : ledgerInv app100) by (apply Hinit; lia).
  split; [exact H0|]. split; [|split].
  - apply Hstep; [reflexivity|].
    apply (Hstep app100 (ClickMain "c")); [reflexivity|exact H0].
  - apply (Hcall app100 "" ""), H0.
  - apply Hrun; [lia|lia|lia|reflexivity].
Defined.

(** ** The idle display *)

(** C10.  In every state of the component, [status] idle comes with
    [remaining] equal to the duration in force.  It is so after the first
    render; [reset()] makes it so from any state; and changing the duration
    while idle makes [remaining] the new duration at once, by the effect of
    line 51, without waiting for a reset. *)
Theorem C10_idle_shows_duration :
  (forall a,
     reachable a -> status (cur a) = Idle ->
     remaining (cur a) = duration (cur a)) /\
  (forall d strict tps rate sh t c h,
     let a := mount d strict tps rate sh t c h in
     status (cur a) = Idle /\ remaining (cur a) = d /\ duration (cur a) = d) /\
  (forall a,
     status (cur (callReset a)) = Idle /\
     remaining (cur (callReset a)) = duration (cur (callReset a))) /\
  (forall a d,
     reachable a -> status (cur a) = Idle ->
     let b := change (SetDuration d) a in
     status (cur b) = Idle /\ duration (cur b) = d /\ remaining (cur b) = d).
Proof.
  split; [|split; [|split]].
  - intros a Hre. apply (idle_remaining a), reachable_consistent, Hre.
  - intros. subst a. simpl. auto.
  - intros a. now rewrite callReset_cells.
  - intros a d Hre Hi b. subst b.
    pose proof (idle_remaining a (reachable_consistent a Hre) Hi) as Hrem.
    unfold change, update, effects, syncIdle. cbn [cur].
    replace (status (setDuration d (cur a))) with (status (cur a))
      by reflexivity.
    rewrite Hi, Status_eqb_refl, andb_true_r. simpl.
    destruct (Z.eqb_spec (duration (cur a)) d); simpl; auto.
    repeat split; auto; congruence.
Qed.

Lemma C10_idle_shows_duration_witness :
  remaining (cur app100) = duration (cur app100) /\
  (let b := change (SetDuration 60) app100 in
   status (cur b) = Idle /\ duration (cur b) = 60 /\ remaining (cur b) = 60).
Proof.
  destruct C10_idle_shows_duration as (Hall & _ & _ & Hset).
  split.
  - apply Hall; [apply reachable_mount | reflexivity].
  - apply Hset; [apply reachable_mount | reflexivity].
Defined.

(** ** What an event can write *)

Lemma setRemaining_same (s : Hooks) : setRemaining (remaining s) s = s.
Proof. now destruct s. Qed.

(** After the effects, the cells are those of the render but for
    [remaining]. *)
Lemma effects_but_remaining (p : Hooks) (a : App) :
  exists r, cur (effects p a) = setRemaining r (cur a).
Proof.
  destruct (effects_cells p a) as [E | [E _]]; rewrite E.
  - exists (remaining (cur a)). now rewrite setRemaining_same.
  - now exists (duration (cur a)).
Qed.

Ltac effects_cur :=
  repeat match goal with
         | |- context [cur (effects ?p ?x)] =>
             let r := fresh "r" in
             let E := fresh "E" in
             destruct (effects_but_remaining p x) as [r E]; rewrite E; clear E
         end.

(** Every way through [handle], one goal each. *)
Ltac handle_split e a :=
  destruct e as [?now|?hidden ?now|?now|[|]|[?d|?b|?n|?n|?sh]];
  cbn [handle change];
  [ unfold tick; destruct (tickRef a) as [?env|] eqn:?Hitv;
    [destruct (remaining (cur a) <=? 1)%Z eqn:?Hlast|]
  | unfold visibilitychange;
    destruct (hidden && running (onVis a) && strictMode (onVis a)) eqn:?Hvis
  | unfold clickMain, giveUp, callStart, callReset;
    destruct (running (cur a)) eqn:?Hrun;
    [|destruct (status (cur a)) eqn:?Hst]
  | rewrite clickDonate_cases; destruct (urlUnset (cur a)) eqn:?Hurl;
    [|destruct (outstandingCents (cur a) <=? 0)%Z eqn:?Hout]
  | rewrite clickDonate_cases; destruct (urlUnset (cur a)) eqn:?Hurl;
    [|destruct (outstandingCents (cur a) <=? 0)%Z eqn:?Hout]
  | | | | | ].

Ltac handle_cases e a :=
  handle_split e a; unfold update; cbn [fst cur]; effects_cur.

(** X1.  The history only grows, and by one entry at most: after any event
    in any state it is the history before, or one new entry in front of
    it. *)
Theorem history_append_only (e : Event) (a : App) :
  history (cur (handle e a)) = history (cur a) \/
  exists x, history (cur (handle e a)) = x :: history (cur a).
Proof.
  handle_cases e a; simpl; auto; right; eexists; reflexivity.
Qed.

Lemma run_cons (e : Event) (es : list Event) (a : App) :
  run (e :: es) a = run es (handle e a).
Proof. reflexivity. Qed.

(** X2.  The treats and the history move together: whatever the events,
    settings changed or not, the treats gained over a run are the treats that
    the entries added to the history display. *)
Theorem treats_match_history (es : list Event) (a : App) :
  treats (cur (run es a)) - earned (history (cur (run es a))) =
  treats (cur a) - earned (history (cur a)).
Proof.
  revert a. induction es as [|e es IH]; intros a; [reflexivity|].
  rewrite run_cons, IH. clear IH.
  handle_cases e a; simpl; lia.
Qed.

(** X3.  What each event leaves alone.  Only a change of settings writes a
    setting; only a tick writes [treats]; only a confirmed donation writes
    [donatedCents]; and a click on "Donate Now" writes neither the session
    ([status], [running], [remaining]) nor the history, the listener or the
    interval. *)
Theorem event_frame (e : Event) (a : App) :
  (isChange e = false -> settings (cur (handle e a)) = settings (cur a)) /\
  ((forall now, e <> Tick now) ->
   treats (cur (handle e a)) = treats (cur a)) /\
  (e <> ClickDonate true ->
   donatedCents (cur (handle e a)) = donatedCents (cur a)) /\
  (forall answer, e = ClickDonate answer ->
   status (cur (handle e a)) = status (cur a) /\
   running (cur (handle e a)) = running (cur a) /\
   remaining (cur (handle e a)) = remaining (cur a) /\
   history (cur (handle e a)) = history (cur a) /\
   onVis (handle e a) = onVis a /\ tickRef (handle e a) = tickRef a).
Proof.
  split; [|split; [|split]].
  - intros He. handle_cases e a; try discriminate He; reflexivity.
  - intros He. handle_cases e a; try reflexivity.
    all: now contradiction (He now).
  - intros He. handle_cases e a; try reflexivity. now contradiction He.
  - intros answer ->. cbn [handle]. rewrite clickDonate_cases.
    destruct (urlUnset (cur a)); [now auto|].
    destruct (_ <=? _)%Z; [now auto|].
    destruct answer; cbn [fst cur onVis tickRef]; now auto.
Qed.

Lemma event_frame_witness :
  settings (cur (handle (Tick "t") after37)) = settings (cur after37) /\
  treats (cur (handle (ClickMain "c") after37)) = treats (cur after37) /\
  donatedCents (cur (handle (ClickDonate false) owingApp)) =
    donatedCents (cur owingApp) /\
  remaining (cur (handle (ClickDonate true) owingApp)) =
    remaining (cur owingApp).
Proof.
  split; [|split; [|split]].
  - apply (proj1 (event_frame (Tick "t") after37)). reflexivity.
  - apply (proj1 (proj2 (event_frame (ClickMain "c") after37))).
    intros now. discriminate.
  - apply (proj1 (proj2 (proj2 (event_frame (ClickDonate false) owingApp)))).
    discriminate.
  - apply (proj2 (proj2 (proj2 (event_frame (ClickDonate true) owingApp)))
             true eq_refl).
Defined.

(** ** The clock and the session *)

(** X4.  In every state of the component [running] mirrors [status], and an
    interval is live exactly while the status is running; outside a running
    session a firing of the interval or a change of visibility, should one
    arrive, changes nothing. *)
Theorem clock_only_while_running (a : App) :
  reachable a ->
  (running (cur a) = true <-> status (cur a) = Running) /\
  (tickRef a <> None <-> status (cur a) = Running) /\
  (status (cur a) <> Running ->
   forall hidden now,
     handle (Tick now) a = a /\ handle (VisibilityChange hidden now) a = a).
Proof.
  intros Hre. pose proof (reachable_consistent a Hre) as Ha.
  pose proof (running_status a Ha) as Hrs.
  pose proof (interval_running a Ha) as Hir.
  split; [exact Hrs|]. split.
  - split.
    + intros Hn. apply Hrs. destruct (running (cur a)) eqn:E; auto.
      destruct Hn. now apply Hir.
    + intros Hst Hn. apply Hir in Hn. apply Hrs in Hst. congruence.
  - intros Hst hidden now.
    assert (Hrun : running (cur a) = false).
    { destruct (running (cur a)); auto. destruct Hst. now apply Hrs. }
    split; cbn [handle].
    + unfold tick. now rewrite (proj2 Hir Hrun).
    + apply visibilitychange_noop; auto.
Qed.

Lemma clock_only_while_running_witness :
  handle (Tick "late") doneApp = doneApp /\
  handle (VisibilityChange true "late") doneApp = doneApp.
Proof.
  apply (clock_only_while_running doneApp).
  - apply run_reachable, callStart_reachable;
      [apply reachable_mount|reflexivity].
  - vm_compute. discriminate.
Defined.

(** X5.  A session whose duration is 1 or less, zero and negative durations
    included, is completed by the first firing of the interval: the test is
    [r <= 1].  The success is logged with the duration as configured and
    the treats are earned. *)
Theorem short_session_first_tick (a : App) (now : string) :
  reachable a -> status (cur a) = Idle -> duration (cur a) <= 1 ->
  let b := tick now (callStart a) in
  status (cur b) = Done /\ remaining (cur b) = 0 /\ tickRef b = None /\
  treats (cur b) = treats (cur a) + treatsPerSuccess (cur a) /\
  history (cur b) =
    Entry.mk now (duration (cur a)) true (Some (treatsPerSuccess (cur a)))
      :: history (cur a).
Proof.
  intros Hre Hi Hd b. subst b.
  destruct (reachable_idle a Hre Hi) as [Hrun Hrem].
  rewrite (callStart_idle a Hrun).
  erewrite tick_last; cbn [cur tickRef]; try reflexivity.
  - simpl. repeat split; reflexivity.
  - simpl. lia.
Qed.

Lemma short_session_first_tick_witness :
  let b := tick "t" (callStart (mount 0 true 5 2 None 0 0 [])) in
  status (cur b) = Done /\ remaining (cur b) = 0 /\ tickRef b = None /\
  treats (cur b) = 0 + 5 /\
  history (cur b) = [Entry.mk "t" 0 true (Some 5)].
Proof.
  apply (short_session_first_tick (mount 0 true 5 2 None 0 0 []) "t").
  - apply reachable_mount.
  - reflexivity.
  - vm_compute. discriminate.
Defined.

(** X6.  After a session that is done or failed, two clicks on the main
    button, "Reset" then "Start Focus", begin a new countdown from the whole
    duration, with a fresh interval and listener, and with [treats],
    [donatedCents] and [history] as they were. *)
Theorem restart_after_session (a : App) (n1 n2 : string) :
  reachable a -> status (cur a) = Done \/ status (cur a) = Failed ->
  let b := run [ClickMain n1; ClickMain n2] a in
  status (cur b) = Running /\ running (cur b) = true /\
  remaining (cur b) = duration (cur a) /\ message (cur b) = "" /\
  tickRef b = Some (cur b) /\ onVis b = cur b /\
  treats (cur b) = treats (cur a) /\
  donatedCents (cur b) = donatedCents (cur a) /\
  history (cur b) = history (cur a).
Proof.
  intros Hre Hst b. subst b. pose proof (reachable_consistent a Hre) as Ha.
  assert (Hrun : running (cur a) = false).
  { destruct (running (cur a)) eqn:E; auto.
    apply (running_status a Ha) in E. destruct Hst; congruence. }
  assert (H1 : clickMain n1 a = callReset a).
  { unfold clickMain. rewrite Hrun. destruct Hst as [-> | ->]; reflexivity. }
  cbn [run fold_left handle]. rewrite H1.
  assert (Hre' : reachable (callReset a)).
  { rewrite <- H1. apply (reachable_handle a (ClickMain n1)), Hre. }
  assert (Hi : status (cur (callReset a)) = Idle)
    by now rewrite callReset_cells.
  rewrite (clickMain_idle n2 _ Hre' Hi).
  rewrite callStart_idle by now rewrite callReset_cells.
  rewrite callReset_cells. cbn [cur onVis tickRef].
  repeat split; reflexivity.
Qed.

Lemma restart_after_session_witness :
  let b := run [ClickMain "r"; ClickMain "s"] doneApp in
  status (cur b) = Running /\ running (cur b) = true /\
  remaining (cur b) = duration (cur doneApp) /\ message (cur b) = "" /\
  tickRef b = Some (cur b) /\ onVis b = cur b /\
  treats (cur b) = treats (cur doneApp) /\
  donatedCents (cur b) = donatedCents (cur doneApp) /\
  history (cur b) = history (cur doneApp).
Proof.
  apply (restart_after_session doneApp "r" "s").
  - apply run_reachable, callStart_reachable;
      [apply reachable_mount|reflexivity].
  - left. reflexivity.
Defined.

(** X7.  Click "Start Focus", let [n] seconds pass, [n] less than the
    duration, and click "Give Up": the session fails with the message
    "Stopped early", the display stays at what remained, the clock stops,
    and the history gets a failure whose duration is the [n] seconds gone;
    [treats] is unchanged. *)
Theorem give_up_logs_elapsed (a : App) (t0 now : string) (nows : list string) :
  reachable a -> status (cur a) = Idle ->
  Z.of_nat (length nows) < duration (cur a) ->
  let b := run (ClickMain t0 :: ticks nows ++ [ClickMain now]) a in
  status (cur b) = Failed /\ message (cur b) = "Stopped early" /\
  remaining (cur b) = duration (cur a) - Z.of_nat (length nows) /\
  tickRef b = None /\ treats (cur b) = treats (cur a) /\
  history (cur b) =
    Entry.mk now (Z.of_nat (length nows)) false None :: history (cur a).
Proof.
  intros Hre Hi Hn b. subst b.
  rewrite run_cons. cbn [handle]. rewrite (clickMain_idle t0 a Hre Hi).
  rewrite run_app, session_under_way by auto.
  cbn [run fold_left handle]. unfold clickMain, giveUp, update, effects.
  cbn [cur onVis tickRef]. simpl.
  destruct (_ && _); simpl; repeat split; f_equal; f_equal; lia.
Qed.

Lemma give_up_logs_elapsed_witness :
  let b := run (ClickMain "s" :: ticks ["t1"; "t2"] ++ [ClickMain "g"]) app100 in
  status (cur b) = Failed /\ message (cur b) = "Stopped early" /\
  remaining (cur b) = 100 - 2 /\
  tickRef b = None /\ treats (cur b) = 0 /\
  history (cur b) = [Entry.mk "g" 2 false None].
Proof.
  apply (give_up_logs_elapsed app100 "s" "g" ["t1"; "t2"]).
  - apply reachable_mount.
  - reflexivity.
  - reflexivity.
Defined.

(** X8.  Click "Start Focus", let [n] seconds pass, [n] less than the
    duration, and let the page be hidden.  In strict mode the session fails
    with the message "Left tab — tree died." and the clock stops, and the
    failure logged has duration 0 whatever [n] is, the listener being the
    one of the render that started the session; [treats] is unchanged.  With
    strict mode off the event changes nothing. *)
Theorem hidden_page_under_way
    (a : App) (t0 now : string) (nows : list string) :
  reachable a -> status (cur a) = Idle ->
  Z.of_nat (length nows) < duration (cur a) ->
  let s := run (ClickMain t0 :: ticks nows) a in
  let b := handle (VisibilityChange true now) s in
  (strictMode (cur a) = true ->
   status (cur b) = Failed /\ message (cur b) = "Left tab — tree died." /\
   tickRef b = None /\ treats (cur b) = treats (cur a) /\
   history (cur b) = Entry.mk now 0 false None :: history (cur a)) /\
  (strictMode (cur a) = false -> b = s).
Proof.
  intros Hre Hi Hn s b. subst b s.
  rewrite run_cons. cbn [handle]. rewrite (clickMain_idle t0 a Hre Hi). split.
  - intros Hs.
    destruct (strict_violation_under_way a nows now Hre Hi Hs Hn)
      as (H1 & _ & H3 & H4 & H5 & H6).
    auto.
  - intros Hs. apply visibilitychange_noop.
    + apply reachable_consistent, run_reachable, callStart_reachable; auto.
    + right. right. rewrite session_under_way by auto. exact Hs.
Qed.

Lemma hidden_page_under_way_witness :
  let s := run (ClickMain "s" :: ticks ["t1"; "t2"]) app100 in
  let b := handle (VisibilityChange true "v") s in
  status (cur b) = Failed /\ message (cur b) = "Left tab — tree died." /\
  tickRef b = None /\ treats (cur b) = 0 /\
  history (cur b) = [Entry.mk "v" 0 false None].
Proof.
  apply (hidden_page_under_way app100 "s" "v" ["t1"; "t2"]).
  - apply reachable_mount.
  - reflexivity.
  - reflexivity.
  - reflexivity.
Defined.

(** X9.  Once a donation is confirmed nothing is outstanding: a second click
    on "Donate Now", whatever the answer would be, only alerts that there is
    no outstanding pledge and changes nothing. *)
Theorem donate_twice (a : App) (answer : bool) :
  urlUnset (cur a) = false -> 0 < outstandingCents (cur a) ->
  let b := fst (clickDonate true a) in
  donatedCents (cur b) = pledgedCents (cur b) /\
  clickDonate answer b = (b, [NothingToDonateError]).
Proof.
  intros Hurl Ho b. subst b. rewrite (clickDonate_cases true a), Hurl.
  destruct (Z.leb_spec (outstandingCents (cur a)) 0); [lia|].
  cbn [fst]. rewrite clickDonate_cases. cbn [cur].
  replace (urlUnset _) with (urlUnset (cur a)) by reflexivity.
  rewrite Hurl.
  assert (Hd : donatedCents (cur a) + outstandingCents (cur a)
               = pledgedCents (cur a))
    by (unfold outstandingCents in *; lia).
  split; [simpl; exact Hd|].
  match goal with
  | |- (if (?x <=? 0)%Z then _ else _) = _ => replace x with 0
  end; [reflexivity|].
  unfold outstandingCents, pledgedCents in *. simpl. lia.
Qed.

Lemma donate_twice_witness :
  let b := fst (clickDonate true owingApp) in
  donatedCents (cur b) = pledgedCents (cur b) /\
  clickDonate true b = (b, [NothingToDonateError]).
Proof.
  apply (donate_twice owingApp true);
    [reflexivity | vm_compute; reflexivity].
Defined.

(** ** The countdown stays within the duration *)

Lemma effects_within (d : Z) (p : Hooks) (a : App) :
  within d a -> within d (effects p a).
Proof.
  intros (Hd & Hr & Hvd & Hvr & Hitv & Hh). unfold within, effects.
  cbn [cur onVis tickRef].
  assert (Hs : duration (syncIdle (cur a)) = d /\
               0 <= remaining (syncIdle (cur a)) <= d /\
               history (syncIdle (cur a)) = history (cur a)).
  { unfold syncIdle. destruct (status (cur a)); simpl; repeat split; lia. }
  destruct Hs as (Hs1 & Hs2 & Hs3).
  repeat split.
  - destruct (_ && _); auto.
  - destruct ((duration p =? duration (cur a))%Z && _); lia.
  - destruct ((duration p =? duration (cur a))%Z && _); lia.
  - destruct (Bool.eqb _ _ && Bool.eqb _ _); auto.
  - destruct (Bool.eqb _ _ && Bool.eqb _ _); lia.
  - destruct (Bool.eqb _ _ && Bool.eqb _ _); lia.
  - intros env. destruct (Bool.eqb _ _); [apply Hitv|].
    destruct (running (cur a)); [|discriminate]. now intros [= <-].
  - destruct ((duration p =? duration (cur a))%Z && _); [exact Hh|].
    now rewrite Hs3.
Qed.

Lemma handle_within (d : Z) (e : Event) (a : App) :
  isChange e = false -> within d a -> within d (handle e a).
Proof.
  intros He Ha. pose proof Ha as (Hd & Hr & Hvd & Hvr & Hitv & Hh).
  handle_split e a; try discriminate He; auto; unfold update;
    try (apply effects_within; unfold within; cbn [cur onVis tickRef];
         simpl; repeat split; auto; try lia; try discriminate).
  - constructor; auto. simpl. rewrite (Hitv _ eq_refl). lia.
  - intros env0 H. rewrite Hitv0 in H. now apply Hitv.
  - constructor; auto. simpl. lia.
  - constructor; auto. simpl. lia.
Qed.

(** X10.  With the settings left alone and a duration [d] that is not
    negative, the countdown never leaves [0..d], whatever the clicks, ticks
    and visibility events, and every entry logged, success or failure, has a
    duration in [0..d]. *)
Theorem countdown_within_duration
    (d : Z) (strict : bool) (tps rate : Z) (sh : option Shelter) (t c : Z)
    (es : list Event) :
  0 <= d -> noChange es = true ->
  let a := run es (mount d strict tps rate sh t c []) in
  0 <= remaining (cur a) <= d /\
  Forall (fun e => 0 <= Entry.duration e <= d) (history (cur a)).
Proof.
  intros Hd Hes a.
  assert (Hrun : forall es b,
            noChange es = true -> within d b -> within d (run es b)).
  { clear. induction es as [|e es IH]; intros b Hes Hb; [exact Hb|].
    unfold noChange in Hes. cbn [forallb] in Hes.
    apply andb_true_iff in Hes as [He Hes]. apply negb_true_iff in He.
    apply (IH (handle e b) Hes). now apply handle_within. }
  assert (H0 : within d (mount d strict tps rate sh t c [])).
  { unfold within. simpl. repeat split; auto; try lia. discriminate. }
  destruct (Hrun es _ Hes H0) as (_ & Hr & _ & _ & _ & Hh). split; assumption.
Qed.

Lemma countdown_within_duration_witness :
  let a := run [ClickMain "s"; Tick "t1"; VisibilityChange true "v";
                ClickMain "r"; ClickMain "s"; Tick "t2"; Tick "t3"]
             (mount 2 true 5 2 None 0 0 []) in
  0 <= remaining (cur a) <= 2 /\
  Forall (fun e => 0 <= Entry.duration e <= 2) (history (cur a)).
Proof.
  apply (countdown_within_duration 2 true 5 2 None 0 0);
    [lia | reflexivity].
Defined.

(** ** Donations over a run *)

Lemma outstandingCents_nonneg (s : Hooks) : 0 <= outstandingCents s.
Proof. unfold outstandingCents. lia. Qed.

(** X11.  [donatedCents] never goes down: not by a click on "Donate Now",
    and not by any other event, a change of settings included, in any state
    and over any run. *)
Theorem donated_never_decreases (es : list Event) (a : App) :
  donatedCents (cur a) <= donatedCents (cur (run es a)).
Proof.
  revert a. induction es as [|e es IH]; intros a; [simpl; lia|].
  rewrite run_cons. apply Z.le_trans with (2 := IH (handle e a)). clear IH.
  pose proof (outstandingCents_nonneg (cur a)).
  handle_cases e a; simpl; lia.
Qed.

(** ** The helpers of the display *)

(** X12.  [clamp(n, a, b)] with [a <= b] lands in [a..b], is [n] itself
    when [n] is already there, and is the nearer bound otherwise; clamping
    twice is clamping once.  With the bounds crossed, [b < a], it is [a]
    whatever [n]. *)
Theorem clamp_range (n a b : Z) :
  (a <= b ->
   a <= clamp n a b <= b /\
   (a <= n <= b -> clamp n a b = n) /\
   (n < a -> clamp n a b = a) /\ (b < n -> clamp n a b = b)) /\
  clamp (clamp n a b) a b = clamp n a b /\
  (b < a -> clamp n a b = a).
Proof. unfold clamp. lia. Qed.

Lemma clamp_range_witness :
  1 <= clamp 7 1 5 <= 5 /\
  (1 <= 7 <= 5 -> clamp 7 1 5 = 7) /\
  (7 < 1 -> clamp 7 1 5 = 1) /\ (5 < 7 -> clamp 7 1 5 = 5).
Proof. apply (proj1 (clamp_range 7 1 5)). lia. Defined.

Lemma fmt_table :
  forallb (fun n => fmt (Z.of_nat n) =? mmss (Z.of_nat n))
    (seq 0 (Z.to_nat 6000)) = true.
Proof. vm_compute. reflexivity. Qed.

(** X13.  Below a hundred minutes the display of the countdown is always
    five characters, [mm:ss]: two digits of minutes, a colon, two digits of
    seconds, with leading zeros. *)
Theorem fmt_mm_ss (s : Z) :
  0 <= s < 6000 -> fmt s = mmss s /\ String.length (fmt s) = 5%nat.
Proof.
  intros Hs.
  assert (E : fmt s = mmss s).
  { pose proof fmt_table as H. rewrite forallb_forall in H.
    specialize (H (Z.to_nat s)). rewrite Z2Nat.id in H by lia.
    apply String.eqb_eq, H, in_seq. lia. }
  split; [exact E|]. rewrite E. reflexivity.
Qed.

Lemma fmt_mm_ss_witness :
  fmt 1500 = mmss 1500 /\ String.length (fmt 1500) = 5%nat.
Proof. apply (fmt_mm_ss 1500). lia. Defined.

(** ** Persistence *)

Section PersistenceFacts.

Variable J : Type.
Variable parse : string -> option J.
Variable stringify : J -> string.
Variable fits : Storage -> string -> string -> bool.

(** X14.  What was saved is what is loaded: when the text of a value parses
    back to the value and is not empty, loading a key just saved gives the
    value if the storage took it, and what the key gave before if it did
    not. *)
Theorem load_save (key : string) (v fallback : J) (st : Storage) :
  parse (stringify v) = Some v -> stringify v <> "" ->
  load J parse key fallback (save J stringify fits key v st) =
  if fits st key (stringify v) then v else load J parse key fallback st.
Proof.
  intros Hp Hne. unfold save, setItem.
  destruct (fits st key (stringify v)); [|reflexivity].
  unfold load. rewrite String.eqb_refl.
  destruct (String.eqb_spec (stringify v) ""); [contradiction|].
  now rewrite Hp.
Qed.

(** X15.  Saving under one key leaves every other key as it was, whatever
    the value and whether the storage takes it or not. *)
Theorem load_save_other (key key' : string) (v fallback : J) (st : Storage) :
  key' <> key ->
  load J parse key' fallback (save J stringify fits key v st) =
  load J parse key' fallback st.
Proof.
  intros Hk. unfold save, setItem.
  destruct (fits st key (stringify v)); [|reflexivity].
  unfold load. destruct (String.eqb_spec key' key); [contradiction|].
  reflexivity.
Qed.

End PersistenceFacts.

Lemma load_save_witness :
  load bool parseBool "dtf_strict" true
    (save bool stringifyBool fits64 "dtf_strict" false emptyStorage) = false.
Proof.
  apply (load_save bool parseBool stringifyBool fits64 "dtf_strict" false true
           emptyStorage).
  - reflexivity.
  - discriminate.
Defined.

Lemma load_save_other_witness :
  load bool parseBool "dtf_strict" true
    (save bool stringifyBool fits64 "dtf_treats" false emptyStorage) =
  load bool parseBool "dtf_strict" true emptyStorage.
Proof.
  apply (load_save_other bool parseBool stringifyBool fits64
           "dtf_treats" "dtf_strict").
  discriminate.
Defined.

(** ** Sessions in a row *)

(** The state a session run to its end leaves. *)
Lemma session_completes (a : App) (nows : list string) :
  reachable a -> status (cur a) = Idle -> 0 < duration (cur a) ->
  Z.of_nat (length nows) = duration (cur a) ->
  run (ticks nows) (callStart a) =
  (let s :=
     setRemaining 0
       (complete (start (cur a)) (last nows "")
          (setRemaining 1 (start (cur a)))) in
   mkApp s s None).
Proof.
  intros Hre Hi Hpos Hlen.
  destruct (exists_last (l := nows)) as (l & x & ->).
  { intros ->. simpl in Hlen. lia. }
  rewrite length_app in Hlen. cbn [length] in Hlen.
  unfold ticks. rewrite map_app, run_app. fold (ticks l).
  rewrite session_under_way by (auto; lia).
  cbn [map run fold_left handle]. rewrite last_last.
  rewrite (tick_last x _ (start (cur a))); cbn [cur onVis tickRef].
  - replace (duration (cur a) - Z.of_nat (length l)) with 1 by lia.
    reflexivity.
  - reflexivity.
  - simpl. lia.
  - reflexivity.
Qed.

Lemma fullSession_run (a : App) (now : string) :
  reachable a -> status (cur a) = Idle -> 0 < duration (cur a) ->
  let b := run (fullSession (duration (cur a)) now) a in
  reachable b /\ status (cur b) = Idle /\
  settings (cur b) = settings (cur a) /\
  remaining (cur b) = duration (cur a) /\
  treats (cur b) = treats (cur a) + treatsPerSuccess (cur a) /\
  donatedCents (cur b) = donatedCents (cur a) /\
  history (cur b) =
    Entry.mk now (duration (cur a)) true (Some (treatsPerSuccess (cur a)))
      :: history (cur a).
Proof.
  intros Hre Hi Hpos b. split; [now apply run_reachable|]. subst b.
  unfold fullSession. rewrite run_cons. cbn [handle].
  rewrite (clickMain_idle now a Hre Hi), run_app.
  rewrite session_completes; auto.
  2: { rewrite repeat_length. lia. }
  assert (Hlast : last (repeat now (Z.to_nat (duration (cur a)))) "" = now).
  { destruct (Z.to_nat (duration (cur a))) as [|n] eqn:E; [lia|].
    clear. induction n as [|n IH]; [reflexivity|].
    change (repeat now (S (S n))) with (now :: repeat now (S n)).
    exact IH. }
  rewrite Hlast. cbn [run fold_left handle]. unfold clickMain.
  cbn [cur running status setRemaining complete setMessage setHistory
       setTreats setStatus setRunning].
  rewrite callReset_cells. cbn [cur]. repeat split; reflexivity.
Qed.

(** X16.  Sessions add up.  From an idle component with a duration [D > 0],
    [k] whole sessions in a row, each started from the button, run to its
    end and reset, leave the component idle at the whole duration with
    [k * treatsPerSuccess] more treats and [k] more entries in the history;
    [donatedCents] is untouched. *)
Theorem sessions_add_up (k : nat) (a : App) (now : string) :
  reachable a -> status (cur a) = Idle -> 0 < duration (cur a) ->
  let b := run (sessions k (duration (cur a)) now) a in
  status (cur b) = Idle /\ remaining (cur b) = duration (cur a) /\
  treats (cur b) = treats (cur a) + Z.of_nat k * treatsPerSuccess (cur a) /\
  length (history (cur b)) = (length (history (cur a)) + k)%nat /\
  donatedCents (cur b) = donatedCents (cur a).
Proof.
  revert a. induction k as [|k IH]; intros a Hre Hi Hpos b; subst b.
  - destruct (reachable_idle a Hre Hi) as [_ Hrem].
    simpl. repeat split; auto; lia.
  - unfold sessions. cbn [repeat concat]. rewrite run_app.
    destruct (fullSession_run a now Hre Hi Hpos)
      as (Hre' & Hi' & Hset & Hrem & Ht & Hd & Hh).
    set (a' := run (fullSession (duration (cur a)) now) a) in *.
    assert (HD : duration (cur a') = duration (cur a))
      by (unfold settings in Hset; congruence).
    assert (Htps : treatsPerSuccess (cur a') = treatsPerSuccess (cur a))
      by (unfold settings in Hset; congruence).
    fold (sessions k (duration (cur a)) now). rewrite <- HD.
    destruct (IH a' Hre' Hi') as (R1 & R2 & R3 & R4 & R5); [lia|].
    rewrite R1, R2, R3, R4, R5, Ht, Hd, Hh, Htps, HD. cbn [length].
    repeat split; lia.
Qed.

Lemma sessions_add_up_witness :
  let b := run (sessions 3 2 "t") (mount 2 true 5 2 None 0 0 []) in
  status (cur b) = Idle /\ remaining (cur b) = 2 /\
  treats (cur b) = 0 + 3 * 5 /\
  length (history (cur b)) = (0 + 3)%nat /\
  donatedCents (cur b) = 0.
Proof.
  apply (sessions_add_up 3 (mount 2 true 5 2 None 0 0 []) "t").
  - apply reachable_mount.
  - reflexivity.
  - reflexivity.
Defined.
